(** * ILI9341 "Hello World" demo for the ESP32 Cheap Yellow Display

    A shallow embedding of [MicroPython/Examples/Basics/1-HelloWorld.py].

    The script is one straight line of calls into collaborators that are not
    part of it: [machine.Pin], [machine.SPI], the display driver
    ([ili9341_cyd.Display]), the font loader ([xglcd_font.XglcdFont]) and
    [time.sleep].  Two things are observable about a run: the sequence of
    calls it makes (with their arguments and whether each returned or
    raised), and the state of the GPIO lines the script drives itself.

    The embedding is therefore a small monad that
    - appends every collaborator call to a trace,
    - asks the environment (a [world]) whether the call raises, and
    - stops at the first exception, exactly as a Python script without
      [try] does.

    The [import] lines are not modelled: an import that fails ends the run
    before any call is made. *)

From stdpp Require Import gmap strings list.
From Stdlib Require Import ZArith Lia.

Local Open Scope string_scope.
Local Open Scope Z_scope.
Local Open Scope list_scope.

(** ** Handles

    Python objects returned by the collaborators' constructors.  The script
    never looks inside them; a handle is identified by the arguments it was
    constructed from. *)

(** [Pin.IN], [Pin.OUT], [Pin.OPEN_DRAIN] of [machine.Pin]. *)
Inductive pin_mode := IN | OUT | OPEN_DRAIN.

(** [Pin(id)] or [Pin(id, mode)]. *)
Record PinObj := mkPin { pin_id : Z; pin_mode_arg : option pin_mode }.

(** [SPI(id, baudrate=..., sck=..., mosi=...)]. *)
Record SPIObj := mkSPI { spi_id : Z; baudrate : Z; sck : PinObj; mosi : PinObj }.

(** [Display(spi, dc=..., cs=..., bl=..., rotation=...)]. *)
Record DisplayObj := mkDisplay
  { d_spi : SPIObj; dc : PinObj; cs : PinObj; bl : PinObj; rotation : Z }.

(** [XglcdFont(path, width, height)]. *)
Record FontObj := mkFont { path : string; width : Z; height : Z }.

(** ** Calls and traces *)

(** Every call the script makes into a collaborator, with its arguments. *)
Inductive call :=
| CallPin (id : Z) (mode : option pin_mode)
| CallOn (p : PinObj)
| CallSPI (id baud : Z) (sck mosi : PinObj)
| CallDisplay (spi : SPIObj) (dc cs bl : PinObj) (rotation : Z)
| CallDrawText8x8 (d : DisplayObj) (x y : Z) (text : string) (color : Z)
| CallXglcdFont (path : string) (width height : Z)
| CallDrawText (d : DisplayObj) (x y : Z) (text : string) (font : FontObj) (color : Z)
| CallSleep (seconds : Z)
| CallClear (d : DisplayObj)
| CallCleanup (d : DisplayObj)
| CallBacklightOff (d : DisplayObj).

(** An exception is identified by the name of its class. *)
Definition exn := string.

(** One line of the trace: a collaborator call together with its outcome
    ([None]: it returned, [Some x]: it raised [x]), or the invocation of a
    procedure defined by the script itself. *)
Inductive entry :=
| Ext (c : call) (outcome : option exn)
| Enter (procedure : string).

(** ** Hardware state driven by the script *)

(** A GPIO line: its configured mode and the level of its output latch;
    [None] where the script has not set it. *)
Record line := mkLine { mode : option pin_mode; level : option bool }.

(** [slept] accumulates the seconds of the script's own [sleep] calls that
    ran to completion ([time.sleep] takes its duration in seconds). *)
Record hw := mkHw { gpio : gmap Z line; slept : Z }.

Definition line_of (g : gmap Z line) (n : Z) : line :=
  default (mkLine None None) (g !! n).

(** [machine.Pin(id, mode)]: a given mode is written to the line, the output
    latch is left as it was; without a mode nothing is reconfigured. *)
Definition configure (n : Z) (m : option pin_mode) (g : gmap Z line) : gmap Z line :=
  match m with
  | Some m' => <[n := mkLine (Some m') (level (line_of g n))]> g
  | None => g
  end.

(** [Pin.on()]: the output latch goes high. *)
Definition drive_high (n : Z) (g : gmap Z line) : gmap Z line :=
  <[n := mkLine (mode (line_of g n)) (Some true)]> g.

(** ** The environment

    What the script cannot decide itself.  [raises h c] tells whether call
    [c], made after the calls in [h], raises.  [color565] is the colour
    packing function imported from the display driver, a pure function of
    its three integer arguments.  [drv_effect] is whatever the display
    driver, the SPI peripheral and the font loader do to the GPIO lines. *)
Record world := mkWorld
  { raises : list entry -> call -> option exn;
    color565 : Z -> Z -> Z -> Z;
    drv_effect : entry -> gmap Z line -> gmap Z line }.

(** ** The monad *)

Inductive result (A : Type) :=
| Ok (a : A)
| Raise (x : exn).
Arguments Ok {A} a.
Arguments Raise {A} x.

(** A computation receives the trace so far and the hardware state; it
    yields the entries it appended, the new hardware state and its result. *)
Definition M (A : Type) : Type := list entry -> hw -> list entry * hw * result A.

Definition ret {A} (a : A) : M A := fun _ s => ([], s, Ok a).

Definition bind {A B} (m : M A) (k : A -> M B) : M B :=
  fun h s =>
    match m h s with
    | (t1, s1, Ok a) =>
        match k a (h ++ t1) s1 with
        | (t2, s2, r) => (t1 ++ t2, s2, r)
        end
    | (t1, s1, Raise x) => (t1, s1, Raise x)
    end.

Notation "x <~ m ;; k" := (bind m (fun x => k))
  (at level 100, m at level 99, k at level 100, right associativity).
Notation "m ;;; k" := (bind m (fun _ => k))
  (at level 100, k at level 100, right associativity).

Definition trace_of {A} (o : list entry * hw * result A) : list entry := o.1.1.
Definition hw_of {A} (o : list entry * hw * result A) : hw := o.1.2.
Definition result_of {A} (o : list entry * hw * result A) : result A := o.2.

Section Script.

Variable w : world.

(** A call whose effect on the hardware is modelled: nothing happens to the
    hardware when it raises. *)
Definition platform_call {A} (c : call) (a : A) (eff : hw -> hw) : M A :=
  fun h s =>
    match raises w h c with
    | Some x => ([Ext c (Some x)], s, Raise x)
    | None => ([Ext c None], eff s, Ok a)
    end.

(** A call into the display driver, the SPI peripheral or the font loader:
    its effect on the GPIO lines is the environment's. *)
Definition driver_call {A} (c : call) (a : A) : M A :=
  fun h s =>
    match raises w h c with
    | Some x =>
        ([Ext c (Some x)], mkHw (drv_effect w (Ext c (Some x)) (gpio s)) (slept s), Raise x)
    | None =>
        ([Ext c None], mkHw (drv_effect w (Ext c None) (gpio s)) (slept s), Ok a)
    end.

(** The invocation of one of the script's own procedures. *)
Definition invoke {A} (name : string) (body : M A) : M A :=
  fun h s =>
    match body (h ++ [Enter name]) s with
    | (t, s', r) => (Enter name :: t, s', r)
    end.

(** *** The collaborators' operations used by the script *)

Definition Pin (id : Z) (m : option pin_mode) : M PinObj :=
  platform_call (CallPin id m) (mkPin id m)
    (fun s => mkHw (configure id m (gpio s)) (slept s)).

Definition on (p : PinObj) : M unit :=
  platform_call (CallOn p) tt
    (fun s => mkHw (drive_high (pin_id p) (gpio s)) (slept s)).

Definition sleep (seconds : Z) : M unit :=
  platform_call (CallSleep seconds) tt
    (fun s => mkHw (gpio s) (slept s + seconds)).

Definition SPI (id baud : Z) (sck mosi : PinObj) : M SPIObj :=
  driver_call (CallSPI id baud sck mosi) (mkSPI id baud sck mosi).

Definition Display (spi : SPIObj) (dc cs bl : PinObj) (rotation : Z) : M DisplayObj :=
  driver_call (CallDisplay spi dc cs bl rotation) (mkDisplay spi dc cs bl rotation).

Definition XglcdFont (path : string) (width height : Z) : M FontObj :=
  driver_call (CallXglcdFont path width height) (mkFont path width height).

Definition draw_text8x8 (d : DisplayObj) (x y : Z) (text : string) (color : Z) : M unit :=
  driver_call (CallDrawText8x8 d x y text color) tt.

Definition draw_text (d : DisplayObj) (x y : Z) (text : string) (font : FontObj)
    (color : Z) : M unit :=
  driver_call (CallDrawText d x y text font color) tt.

Definition clear (d : DisplayObj) : M unit := driver_call (CallClear d) tt.
Definition cleanup (d : DisplayObj) : M unit := driver_call (CallCleanup d) tt.
Definition backlight_off (d : DisplayObj) : M unit := driver_call (CallBacklightOff d) tt.

(** *** The script *)

(** Lines 8-14: the three module-level LED pins, then [on()] on each. *)
Definition led_setup : M (PinObj * PinObj * PinObj) :=
  red_led <~ Pin 4 (Some OUT);;
  green_led <~ Pin 16 (Some OUT);;
  blue_led <~ Pin 17 (Some OUT);;
  on red_led;;;
  on green_led;;;
  on blue_led;;;
  ret (red_led, green_led, blue_led).

(** Lines 16-33.  Python evaluates the arguments of a call from left to
    right before the call itself, so [Pin(14)] and [Pin(13)] precede [SPI]
    and the three control pins precede [Display]. *)
Definition printText : M unit :=
  sck_pin <~ Pin 14 None;;
  mosi_pin <~ Pin 13 None;;
  spi <~ SPI 1 40000000 sck_pin mosi_pin;;
  dc_pin <~ Pin 2 None;;
  cs_pin <~ Pin 15 None;;
  bl_pin <~ Pin 21 None;;
  display <~ Display spi dc_pin cs_pin bl_pin 180;;
  draw_text8x8 display 20 80 "Hello World!" (color565 w 255 0 255);;;
  robotron <~ XglcdFont "fonts/Robotron13x21.c" 13 21;;
  draw_text display 20 155 "HELLO WORLD!" robotron (color565 w 255 255 255);;;
  sleep 10;;;
  clear display;;;
  cleanup display;;;
  backlight_off display.

(** The whole module: LED set-up, then line 35, [printText()]. *)
Definition main : M unit :=
  led_setup;;;
  invoke "printText" printText.

End Script.

(** ** Reading a trace *)

Definition is_spi (c : call) : bool := match c with CallSPI _ _ _ _ => true | _ => false end.
Definition is_display (c : call) : bool :=
  match c with CallDisplay _ _ _ _ _ => true | _ => false end.
Definition is_draw_text8x8 (c : call) : bool :=
  match c with CallDrawText8x8 _ _ _ _ _ => true | _ => false end.
Definition is_font (c : call) : bool :=
  match c with CallXglcdFont _ _ _ => true | _ => false end.
Definition is_draw_text (c : call) : bool :=
  match c with CallDrawText _ _ _ _ _ _ => true | _ => false end.
Definition is_sleep (c : call) : bool := match c with CallSleep _ => true | _ => false end.
Definition is_clear (c : call) : bool := match c with CallClear _ => true | _ => false end.
Definition is_cleanup (c : call) : bool := match c with CallCleanup _ => true | _ => false end.
Definition is_backlight_off (c : call) : bool :=
  match c with CallBacklightOff _ => true | _ => false end.

Definition is_draw (c : call) : bool := is_draw_text8x8 c || is_draw_text c.
Definition is_teardown (c : call) : bool := is_clear c || is_cleanup c || is_backlight_off c.

(** The RGB LED is wired to GPIO 4 (red), 16 (green) and 17 (blue). *)
Definition is_led_line (n : Z) : bool := (n =? 4) || (n =? 16) || (n =? 17).

(** The LED set-up calls of lines 8-14: an LED pin constructed as an
    output, or [on()] on an LED pin. *)
Definition is_led_setup (c : call) : bool :=
  match c with
  | CallPin id (Some OUT) => is_led_line id
  | CallOn p => is_led_line (pin_id p)
  | _ => false
  end.

(** The operations of [printText] on the bus, the display and the font,
    its delay and its teardown. *)
Definition is_printText_op (c : call) : bool :=
  is_spi c || is_display c || is_font c || is_draw c || is_sleep c || is_teardown c.

(** Lift a predicate on calls to trace entries. *)
Definition ext (p : call -> bool) (e : entry) : bool :=
  match e with
  | Ext c _ => p c
  | Enter _ => false
  end.

Definition is_enter (name : string) (e : entry) : bool :=
  match e with
  | Enter n => String.eqb n name
  | Ext _ _ => false
  end.

Definition other_than (p : entry -> bool) (e : entry) : bool := negb (p e).

(** The calls of a trace, in order, without their outcomes. *)
Definition calls (t : list entry) : list call :=
  omap (fun e => match e with Ext c _ => Some c | Enter _ => None end) t.

Definition count (p : entry -> bool) (t : list entry) : nat :=
  length (List.filter p t).

Definition invoked (p : call -> bool) (t : list entry) : Prop :=
  exists c o, p c = true /\ Ext c o ∈ t.
Definition returned (p : call -> bool) (t : list entry) : Prop :=
  exists c, p c = true /\ Ext c None ∈ t.
Definition raised (p : call -> bool) (x : exn) (t : list entry) : Prop :=
  exists c, p c = true /\ Ext c (Some x) ∈ t.

(** Every [p]-entry of the trace comes strictly before every [q]-entry. *)
Definition precedes (p q : entry -> bool) (t : list entry) : Prop :=
  forall (i j : nat) (e1 e2 : entry),
    t !! i = Some e1 -> t !! j = Some e2 ->
    p e1 = true -> q e2 = true -> (i < j)%nat.

(** A checker for [precedes]: from a [q]-entry on, no [p]-entry. *)
Fixpoint precedesb (p q : entry -> bool) (t : list entry) : bool :=
  match t with
  | [] => true
  | e :: t' =>
      (negb (q e) || (negb (p e) && forallb (fun e' => negb (p e')) t'))
      && precedesb p q t'
  end.

(** ** Environments used as concrete inputs *)

(** Modelled from the spec: [color565] of the display driver is not part of
    the script; the glossary describes it as "a 16-bit color encoding packing
    5 bits red, 6 bits green, 5 bits blue into one integer". *)
Definition rgb565 (r g b : Z) : Z :=
  Z.lor (Z.lor (Z.shiftl (Z.shiftr (Z.land r 255) 3) 11)
               (Z.shiftl (Z.shiftr (Z.land g 255) 2) 5))
        (Z.shiftr (Z.land b 255) 3).

(** Nothing ever raises; the drivers leave the GPIO lines alone. *)
Definition calm : world := mkWorld (fun _ _ => None) rgb565 (fun _ g => g).

(** Every call satisfying [p] raises [x]; all others return. *)
Definition failing (p : call -> bool) (x : exn) : world :=
  mkWorld (fun _ c => if p c then Some x else None) rgb565 (fun _ g => g).

Definition power_on : hw := mkHw ∅ 0.

(** The handles [printText] builds when nothing raises. *)
Definition spi_handle : SPIObj := mkSPI 1 40000000 (mkPin 14 None) (mkPin 13 None).
Definition display_handle : DisplayObj :=
  mkDisplay spi_handle (mkPin 2 None) (mkPin 15 None) (mkPin 21 None) 180.
Definition robotron_font : FontObj := mkFont "fonts/Robotron13x21.c" 13 21.

(** The pin handles a [Display] construction call receives. *)
Definition control_pins (c : call) : list PinObj :=
  match c with
  | CallDisplay _ dc cs bl _ => [dc; cs; bl]
  | _ => []
  end.

Definition is_return (e : entry) : bool :=
  match e with
  | Ext _ None => true
  | _ => false
  end.

Definition invokedb (p : call -> bool) (t : list entry) : bool := existsb (ext p) t.
Definition returnedb (p : call -> bool) (t : list entry) : bool :=
  existsb (fun e => ext p e && is_return e) t.

(** [Pin(n)] or [Pin(n, mode)] for a given line [n]. *)
Definition is_pin (n : Z) (c : call) : bool :=
  match c with
  | CallPin id _ => id =? n
  | _ => false
  end.

(** The calls made by a run of [printText], and by a run of the module. *)
Definition printText_trace (w : world) (h : list entry) (s : hw) : list entry :=
  trace_of (printText w h s).
Definition main_trace (w : world) (h : list entry) (s : hw) : list entry :=
  trace_of (main w h s).

(** The draw calls of a trace ([draw_text8x8] and [draw_text]), in order. *)
Definition draw_calls (t : list entry) : list call := List.filter is_draw (calls t).

(** [clear], [cleanup] and [backlight_off] each occur exactly once, in that
    order, after every [sleep], and no draw call comes after any of them
    (every draw call precedes every teardown call). *)
Definition teardown_once_in_order (t : list entry) : Prop :=
  count (ext is_clear) t = 1%nat
  /\ count (ext is_cleanup) t = 1%nat
  /\ count (ext is_backlight_off) t = 1%nat
  /\ precedes (ext is_clear) (ext is_cleanup) t
  /\ precedes (ext is_cleanup) (ext is_backlight_off) t
  /\ precedes (ext is_sleep) (ext is_teardown) t
  /\ precedes (ext is_draw) (ext is_teardown) t.

(** The six calls of lines 8-14, all returned. *)
Definition led_setup_trace : list entry :=
  [ Ext (CallPin 4 (Some OUT)) None;
    Ext (CallPin 16 (Some OUT)) None;
    Ext (CallPin 17 (Some OUT)) None;
    Ext (CallOn (mkPin 4 (Some OUT))) None;
    Ext (CallOn (mkPin 16 (Some OUT))) None;
    Ext (CallOn (mkPin 17 (Some OUT))) None ].

Definition raisedb (p : call -> bool) (x : exn) (t : list entry) : bool :=
  existsb (fun e => match e with
                    | Ext c (Some y) => p c && String.eqb y x
                    | _ => false
                    end) t.

(** The entries of a trace before its first [p]-entry. *)
Fixpoint before (p : entry -> bool) (t : list entry) : list entry :=
  match t with
  | [] => []
  | e :: t' => if p e then [] else e :: before p t'
  end.

(** The display handle a method call is made on. *)
Definition receiver (c : call) : option DisplayObj :=
  match c with
  | CallDrawText8x8 d _ _ _ _ => Some d
  | CallDrawText d _ _ _ _ _ => Some d
  | CallClear d => Some d
  | CallCleanup d => Some d
  | CallBacklightOff d => Some d
  | _ => None
  end.

(** Every [Display] construction call of the trace receives [n] control
    pins. *)
Definition display_built_with_pins (n : nat) (t : list entry) : Prop :=
  forall c, c ∈ List.filter is_display (calls t) -> length (control_pins c) = n.

Definition not_teardown (c : call) : bool := negb (is_teardown c).

(** The calls of [printText] in source order (lines 20-33), for the colour
    function of environment [w]. *)
Definition printText_calls (w : world) : list call :=
  [ CallPin 14 None; CallPin 13 None;
    CallSPI 1 40000000 (mkPin 14 None) (mkPin 13 None);
    CallPin 2 None; CallPin 15 None; CallPin 21 None;
    CallDisplay spi_handle (mkPin 2 None) (mkPin 15 None) (mkPin 21 None) 180;
    CallDrawText8x8 display_handle 20 80 "Hello World!" (color565 w 255 0 255);
    CallXglcdFont "fonts/Robotron13x21.c" 13 21;
    CallDrawText display_handle 20 155 "HELLO WORLD!" robotron_font
      (color565 w 255 255 255);
    CallSleep 10;
    CallClear display_handle; CallCleanup display_handle;
    CallBacklightOff display_handle ].

(** A trace in which the given calls all returned. *)
Definition all_returned (cs : list call) : list entry := map (fun c => Ext c None) cs.

(** [on()] on the pin of line [n]. *)
Definition is_on_line (n : Z) (c : call) : bool :=
  match c with
  | CallOn p => pin_id p =? n
  | _ => false
  end.

(** * Properties *)

(** ** The monad laws the script's shape relies on *)

Lemma bind_ret_l {A B} (a : A) (k : A -> M B) h s : bind (ret a) k h s = k a h s.
Proof.
  unfold bind, ret. rewrite app_nil_r.
  destruct (k a h s) as [[t2 s2] r]. reflexivity.
Qed.

Lemma bind_assoc {A B C} (m : M A) (f : A -> M B) (g : B -> M C) h s :
  bind (bind m f) g h s = bind m (fun a => bind (f a) g) h s.
Proof.
  unfold bind.
  destruct (m h s) as [[t1 s1] [a|x]]; [|reflexivity].
  destruct (f a (h ++ t1) s1) as [[t2 s2] [b|y]]; [|reflexivity].
  rewrite <- (app_assoc h t1 t2).
  destruct (g b (h ++ t1 ++ t2) s2) as [[t3 s3] r].
  rewrite <- (app_assoc t1 t2 t3). reflexivity.
Qed.

Section Steps.

Variable w : world.

(** One step of a run: the call either raises, and the run ends there, or
    returns, and the continuation runs on the extended trace. *)
Lemma step_platform_call {A B} c (a : A) eff (k : A -> M B) h s t s' r :
  bind (platform_call w c a eff) k h s = (t, s', r) ->
  (exists x, raises w h c = Some x /\ t = [Ext c (Some x)] /\ s' = s /\ r = Raise x)
  \/ (raises w h c = None /\
      exists t2, t = Ext c None :: t2 /\ k a (h ++ [Ext c None]) (eff s) = (t2, s', r)).
Proof.
  unfold bind, platform_call. destruct (raises w h c) as [x|].
  - intros [= <- <- <-]. left. exists x. auto.
  - destruct (k a (h ++ [Ext c None]) (eff s)) as [[t2 s2] r2].
    intros [= <- <- <-]. right. split; [reflexivity|]. exists t2. auto.
Qed.

Lemma step_driver_call {A B} c (a : A) (k : A -> M B) h s t s' r :
  bind (driver_call w c a) k h s = (t, s', r) ->
  (exists x, raises w h c = Some x /\ t = [Ext c (Some x)] /\
             s' = mkHw (drv_effect w (Ext c (Some x)) (gpio s)) (slept s) /\ r = Raise x)
  \/ (raises w h c = None /\
      exists t2, t = Ext c None :: t2 /\
        k a (h ++ [Ext c None]) (mkHw (drv_effect w (Ext c None) (gpio s)) (slept s))
        = (t2, s', r)).
Proof.
  unfold bind, driver_call. destruct (raises w h c) as [x|].
  - intros [= <- <- <-]. left. exists x. auto.
  - destruct (k a _ _) as [[t2 s2] r2].
    intros [= <- <- <-]. right. split; [reflexivity|]. exists t2. auto.
Qed.

(** The last call of a procedure. *)
Lemma last_driver_call {A} c (a : A) h s t s' r :
  driver_call w c a h s = (t, s', r) ->
  (exists x, raises w h c = Some x /\ t = [Ext c (Some x)] /\
             s' = mkHw (drv_effect w (Ext c (Some x)) (gpio s)) (slept s) /\ r = Raise x)
  \/ (raises w h c = None /\ t = [Ext c None] /\
      s' = mkHw (drv_effect w (Ext c None) (gpio s)) (slept s) /\ r = Ok a).
Proof.
  unfold driver_call. destruct (raises w h c) as [x|]; intros [= <- <- <-].
  - left. exists x. auto.
  - right. auto.
Qed.

Lemma step_invoke {A} name (body : M A) h s t s' r :
  invoke name body h s = (t, s', r) ->
  exists t2, t = Enter name :: t2 /\ body (h ++ [Enter name]) s = (t2, s', r).
Proof.
  unfold invoke. destruct (body _ s) as [[t2 s2] r2].
  intros [= <- <- <-]. exists t2. auto.
Qed.

Lemma last_ret {A} (a : A) h s t s' r :
  ret a h s = (t, s', r) -> t = [] /\ s' = s /\ r = Ok a.
Proof. unfold ret. intros [= <- <- <-]. auto. Qed.

End Steps.

(** Case analysis on a run [H : m h s = (t, s', r)]: walk through the
    script, splitting on whether each call raises. *)
Ltac run_step H :=
  let x := fresh "x" in
  let E := fresh "E" in
  let t2 := fresh "t" in
  lazymatch type of H with
  | bind (bind _ _) _ _ _ = _ => rewrite bind_assoc in H
  | bind (platform_call _ _ _ _) _ _ _ = _ =>
      apply step_platform_call in H as [(x & E & -> & -> & ->) | (E & t2 & -> & H)]
  | bind (driver_call _ _ _) _ _ _ = _ =>
      apply step_driver_call in H as [(x & E & -> & -> & ->) | (E & t2 & -> & H)]
  | bind (ret _) _ _ _ = _ => rewrite bind_ret_l in H
  | driver_call _ _ _ _ _ = _ =>
      apply last_driver_call in H as [(x & E & -> & -> & ->) | (E & -> & -> & ->)]
  | invoke _ _ _ _ = _ => apply step_invoke in H as (t2 & -> & H)
  | ret _ _ _ = _ => apply last_ret in H as (-> & -> & ->)
  end;
  try (cbv beta in H; cbn [gpio slept] in H).

Ltac run_cases H :=
  unfold main, printText, led_setup, Pin, on, sleep, SPI, Display, XglcdFont,
    draw_text8x8, draw_text, clear, cleanup, backlight_off in H;
  repeat run_step H;
  cbn [gpio slept].

(** ** Reflection of the trace predicates *)

Lemma invoked_iff p t : invoked p t <-> invokedb p t = true.
Proof.
  unfold invoked, invokedb. rewrite existsb_exists. split.
  - intros (c & o & Hp & Hin). exists (Ext c o). split; [|exact Hp].
    apply list_elem_of_In, Hin.
  - intros ([c o|n] & Hin & Hp); [|discriminate].
    exists c, o. split; [exact Hp|]. apply list_elem_of_In, Hin.
Qed.

Lemma returned_iff p t : returned p t <-> returnedb p t = true.
Proof.
  unfold returned, returnedb. rewrite existsb_exists. split.
  - intros (c & Hp & Hin). exists (Ext c None). split.
    + apply list_elem_of_In, Hin.
    + simpl. rewrite Hp. reflexivity.
  - intros ([c [x|]|n] & Hin & Hp); simpl in Hp;
      try (rewrite andb_false_r in Hp); try discriminate.
    exists c. rewrite andb_true_r in Hp. split; [exact Hp|].
    apply list_elem_of_In, Hin.
Qed.

Lemma raised_iff p x t : raised p x t <-> raisedb p x t = true.
Proof.
  unfold raised, raisedb. rewrite existsb_exists. split.
  - intros (c & Hp & Hin). exists (Ext c (Some x)). split.
    + apply list_elem_of_In, Hin.
    + rewrite Hp, String.eqb_refl. reflexivity.
  - intros ([c [y|]|n] & Hin & Hp); try discriminate.
    apply andb_prop in Hp as [Hp Hy]. apply String.eqb_eq in Hy as ->.
    exists c. split; [exact Hp|]. apply list_elem_of_In, Hin.
Qed.

Lemma precedesb_sound p q t : precedesb p q t = true -> precedes p q t.
Proof.
  induction t as [|a t IH]; intros H i j e1 e2 Hi Hj Hp Hq.
  - rewrite lookup_nil in Hi. discriminate.
  - simpl in H. apply andb_prop in H as [Ha Ht].
    destruct j as [|j].
    + simpl in Hj. injection Hj as ->. rewrite Hq in Ha. simpl in Ha.
      apply andb_prop in Ha as [Hpa Hall].
      destruct i as [|i].
      * simpl in Hi. injection Hi as ->. rewrite Hp in Hpa. discriminate.
      * simpl in Hi. apply list_elem_of_lookup_2, list_elem_of_In in Hi.
        rewrite forallb_forall in Hall. specialize (Hall _ Hi).
        rewrite Hp in Hall. discriminate.
    + destruct i as [|i]; [lia|].
      simpl in Hi, Hj. specialize (IH Ht i j e1 e2 Hi Hj Hp Hq). lia.
Qed.

(** ** Proof automation for runs *)

Ltac mem_cases H :=
  repeat match type of H with
         | _ ∈ _ :: _ => apply elem_of_cons in H as [H|H]
         | _ ∈ [] => apply elem_of_nil in H; destruct H
         end.

(** Settle a goal from a hypothesis about a concrete trace: the hypothesis
    evaluates to an absurdity, or the goal holds by evaluation. *)
Ltac by_eval H :=
  first [ reflexivity
        | vm_compute in H; first [ discriminate H | injection H as <-; reflexivity ] ].

(** Split a run into its possible outcomes, one per call that may raise. *)
Ltac start_run m H :=
  let t := fresh "t" in
  let s' := fresh "s'" in
  let r := fresh "r" in
  destruct m as [[t s'] r] eqn:H;
  run_cases H;
  cbn [trace_of hw_of result_of fst snd gpio slept pin_id].

(** ** GPIO lines under [Pin(..., Pin.OUT)] and [on()] *)

Lemma configure_lookup n m g :
  configure n (Some m) g !! n = Some (mkLine (Some m) (level (line_of g n))).
Proof. unfold configure. apply lookup_insert_eq. Qed.

Lemma configure_lookup_ne n n' m g : n <> n' -> configure n m g !! n' = g !! n'.
Proof. intros Hne. destruct m; [apply lookup_insert_ne, Hne | reflexivity]. Qed.

Lemma drive_high_lookup n g :
  drive_high n g !! n = Some (mkLine (mode (line_of g n)) (Some true)).
Proof. unfold drive_high. apply lookup_insert_eq. Qed.

Lemma drive_high_lookup_ne n n' g : n <> n' -> drive_high n g !! n' = g !! n'.
Proof. intros Hne. apply lookup_insert_ne, Hne. Qed.

Lemma drive_high_mode n n' g : mode (line_of (drive_high n g) n') = mode (line_of g n').
Proof.
  unfold line_of. destruct (decide (n = n')) as [->|Hne].
  - rewrite drive_high_lookup. reflexivity.
  - rewrite drive_high_lookup_ne by exact Hne. reflexivity.
Qed.

Lemma configure_mode n m g : mode (line_of (configure n (Some m) g) n) = Some m.
Proof. unfold line_of. rewrite configure_lookup. reflexivity. Qed.

Lemma configure_mode_ne n n' m g :
  n <> n' -> mode (line_of (configure n m g) n') = mode (line_of g n').
Proof.
  intros Hne. unfold line_of. rewrite configure_lookup_ne by exact Hne. reflexivity.
Qed.

(** ** Module level: the LED pins *)

(** C6.  When the pin-initialisation step (lines 8-14) completes, each of
    the three LED lines (GPIO 4, 16 and 17) is configured as an output and
    its output latch is high, whatever the lines were before. *)
Theorem led_pins_output_high w h s leds n :
  result_of (led_setup w h s) = Ok leds ->
  is_led_line n = true ->
  gpio (hw_of (led_setup w h s)) !! n = Some (mkLine (Some OUT) (Some true)).
Proof.
  start_run (led_setup w h s) H.
  all: intros Hr Hn; try discriminate Hr.
  unfold is_led_line in Hn.
  destruct (Z.eqb_spec n 4) as [->|H4]; [|destruct (Z.eqb_spec n 16) as [->|H16];
    [|destruct (Z.eqb_spec n 17) as [->|H17]; [|discriminate Hn]]].
  - rewrite !drive_high_lookup_ne, drive_high_lookup by lia.
    rewrite !configure_mode_ne, configure_mode by lia. reflexivity.
  - rewrite drive_high_lookup_ne, drive_high_lookup by lia.
    rewrite drive_high_mode, configure_mode_ne, configure_mode by lia. reflexivity.
  - rewrite drive_high_lookup.
    rewrite !drive_high_mode, configure_mode. reflexivity.
Qed.

(** The run in which nothing raises, from power-on, observed at GPIO 16. *)
Lemma led_pins_output_high_witness :
  result_of (led_setup calm [] power_on)
    = Ok (mkPin 4 (Some OUT), mkPin 16 (Some OUT), mkPin 17 (Some OUT))
  /\ is_led_line 16 = true
  /\ gpio (hw_of (led_setup calm [] power_on)) !! 16 = Some (mkLine (Some OUT) (Some true)).
Proof.
  split; [reflexivity|]. split; [reflexivity|].
  apply (led_pins_output_high calm [] power_on
           (mkPin 4 (Some OUT), mkPin 16 (Some OUT), mkPin 17 (Some OUT)) 16);
    reflexivity.
Defined.

(** ** [printText]: bus and display construction *)

(** In every run of [printText], whatever raises: an SPI construction call
    is [SPI(1, baudrate=40000000, sck=Pin(14), mosi=Pin(13))]; there is at
    most one; it comes strictly before any [Display] construction, which is
    only attempted once it has returned and which receives the handle it
    returned. *)
Lemma spi_call_in_every_run w h s :
  (forall c, c ∈ List.filter is_spi (calls (printText_trace w h s)) ->
     c = CallSPI 1 40000000 (mkPin 14 None) (mkPin 13 None))
  /\ (count (ext is_spi) (printText_trace w h s) <= 1)%nat
  /\ precedes (ext is_spi) (ext is_display) (printText_trace w h s)
  /\ (invoked is_display (printText_trace w h s) ->
      returned is_spi (printText_trace w h s))
  /\ (forall c, c ∈ List.filter is_display (calls (printText_trace w h s)) ->
      exists dc cs bl rot, c = CallDisplay spi_handle dc cs bl rot).
Proof.
  rewrite !returned_iff, !invoked_iff. unfold printText_trace.
  start_run (printText w h s) H.
  all: split; [intros c Hc; cbn in Hc; mem_cases Hc; exact Hc|].
  all: split; [cbn; lia|].
  all: split; [apply precedesb_sound; reflexivity|].
  all: split; [intros Hc; by_eval Hc|].
  all: intros c Hc; cbn in Hc; mem_cases Hc; subst c; eauto.
Qed.

(** C5, amended.  In every run of [printText] in which the constructions of
    the two bus pins, [Pin(14)] and [Pin(13)], return, the SPI bus is
    constructed by exactly one call,
    [SPI(1, baudrate=40000000, sck=Pin(14), mosi=Pin(13))], and this call
    comes strictly before any [Display] construction, which is attempted
    only once it has returned and which receives the handle it returned. *)
Theorem spi_before_display w h s :
  returned (is_pin 14) (printText_trace w h s) ->
  returned (is_pin 13) (printText_trace w h s) ->
  List.filter is_spi (calls (printText_trace w h s)) =
    [CallSPI 1 40000000 (mkPin 14 None) (mkPin 13 None)]
  /\ precedes (ext is_spi) (ext is_display) (printText_trace w h s)
  /\ (invoked is_display (printText_trace w h s) ->
      returned is_spi (printText_trace w h s))
  /\ (forall c, c ∈ List.filter is_display (calls (printText_trace w h s)) ->
      exists dc cs bl rot, c = CallDisplay spi_handle dc cs bl rot).
Proof.
  rewrite !returned_iff, !invoked_iff. unfold printText_trace.
  start_run (printText w h s) H.
  all: intros H14 H13; try discriminate H14; try discriminate H13.
  all: split; [reflexivity|].
  all: split; [apply precedesb_sound; reflexivity|].
  all: split; [intros Hc; by_eval Hc|].
  all: intros c Hc; cbn in Hc; mem_cases Hc; subst c; eauto.
Qed.

(** The run in which nothing raises: both bus pins are constructed. *)
Lemma spi_before_display_witness :
  returned (is_pin 14) (printText_trace calm [] power_on)
  /\ returned (is_pin 13) (printText_trace calm [] power_on)
  /\ List.filter is_spi (calls (printText_trace calm [] power_on)) =
       [CallSPI 1 40000000 (mkPin 14 None) (mkPin 13 None)].
Proof.
  assert (H14 : returned (is_pin 14) (printText_trace calm [] power_on))
    by (apply returned_iff; reflexivity).
  assert (H13 : returned (is_pin 13) (printText_trace calm [] power_on))
    by (apply returned_iff; reflexivity).
  split; [exact H14|]. split; [exact H13|].
  exact (proj1 (spi_before_display calm [] power_on H14 H13)).
Defined.

(** C5 as stated fails: when the construction of the clock pin [Pin(14)]
    raises, the run ends there and no SPI construction call is made. *)
Lemma spi_not_constructed_when_pin_raises :
  result_of (printText (failing (is_pin 14) "ValueError") [] power_on) = Raise "ValueError"
  /\ ~ invoked is_spi (printText_trace (failing (is_pin 14) "ValueError") [] power_on)
  /\ List.filter is_spi
       (calls (printText_trace (failing (is_pin 14) "ValueError") [] power_on)) = [].
Proof.
  split; [reflexivity|]. split; [|reflexivity].
  rewrite invoked_iff. intros Hc. vm_compute in Hc. discriminate Hc.
Qed.

(** C7.  In every run of [printText], a [Display] construction call is
    [Display(spi, dc=Pin(2), cs=Pin(15), bl=Pin(21), rotation=180)]: the SPI
    bus handle, three control pins (data/command, chip-select, backlight)
    and the rotation value 180.  The calls before it are the two bus pins,
    the SPI construction and those three pins; every later display
    operation acts on the handle so composed; and the construction is
    attempted as soon as [Pin(21)] has returned. *)
Theorem display_built_from_spi_three_pins_rotation w h s :
  (forall c, c ∈ List.filter is_display (calls (printText_trace w h s)) ->
     c = CallDisplay spi_handle (mkPin 2 None) (mkPin 15 None) (mkPin 21 None) 180)
  /\ display_built_with_pins 3 (printText_trace w h s)
  /\ (invoked is_display (printText_trace w h s) ->
      calls (before (ext is_display) (printText_trace w h s)) =
        [CallPin 14 None; CallPin 13 None;
         CallSPI 1 40000000 (mkPin 14 None) (mkPin 13 None);
         CallPin 2 None; CallPin 15 None; CallPin 21 None])
  /\ (forall c d, c ∈ calls (printText_trace w h s) -> receiver c = Some d ->
      d = mkDisplay spi_handle (mkPin 2 None) (mkPin 15 None) (mkPin 21 None) 180)
  /\ (returned (is_pin 21) (printText_trace w h s) ->
      invoked is_display (printText_trace w h s)).
Proof.
  unfold display_built_with_pins.
  rewrite !returned_iff, !invoked_iff. unfold printText_trace.
  start_run (printText w h s) H.
  all: split; [intros c Hc; cbn in Hc; mem_cases Hc; exact Hc|].
  all: split; [intros c Hc; cbn in Hc; mem_cases Hc; subst c; reflexivity|].
  all: split; [intros Hc; by_eval Hc|].
  all: split; [intros c d Hc Hd; cbn in Hc; mem_cases Hc; subst c;
               cbn in Hd; first [discriminate Hd | injection Hd as <-; reflexivity]|].
  all: intros Hc; by_eval Hc.
Qed.

(** C7 as stated fails: in the run where nothing raises, the [Display]
    construction call is made and it receives three control pins, not
    four. *)
Lemma display_not_built_with_four_pins :
  invoked is_display (printText_trace calm [] power_on)
  /\ ~ display_built_with_pins 4 (printText_trace calm [] power_on).
Proof.
  split.
  - apply invoked_iff. reflexivity.
  - intros Hfour.
    assert (Hin : CallDisplay spi_handle (mkPin 2 None) (mkPin 15 None) (mkPin 21 None) 180
                  ∈ List.filter is_display (calls (printText_trace calm [] power_on)))
      by (cbn; apply list_elem_of_here).
    specialize (Hfour _ Hin). discriminate Hfour.
Qed.

(** ** [printText]: the two draw calls *)

(** In every run of [printText], whatever raises: the first draw call, if
    there is one, is
    [draw_text8x8(20, 80, 'Hello World!', color565(255, 0, 255))] on the
    display handle, there is one exactly when the [Display] construction
    returned, and it comes before the font load and before [draw_text],
    neither of which is attempted unless it returned. *)
Lemma first_draw_call_in_every_run w h s :
  (forall c, draw_calls (printText_trace w h s) !! 0%nat = Some c ->
     c = CallDrawText8x8 display_handle 20 80 "Hello World!" (color565 w 255 0 255))
  /\ (returned is_display (printText_trace w h s) <->
      draw_calls (printText_trace w h s) !! 0%nat =
        Some (CallDrawText8x8 display_handle 20 80 "Hello World!" (color565 w 255 0 255)))
  /\ precedes (ext is_draw_text8x8) (ext is_font) (printText_trace w h s)
  /\ precedes (ext is_draw_text8x8) (ext is_draw_text) (printText_trace w h s)
  /\ (invoked is_font (printText_trace w h s) ->
      returned is_draw_text8x8 (printText_trace w h s))
  /\ (invoked is_draw_text (printText_trace w h s) ->
      returned is_draw_text8x8 (printText_trace w h s)).
Proof.
  rewrite !returned_iff, !invoked_iff. unfold printText_trace.
  start_run (printText w h s) H.
  all: split; [intros c Hc; by_eval Hc|].
  all: split; [split; intros Hc; by_eval Hc|].
  all: split; [apply precedesb_sound; reflexivity|].
  all: split; [apply precedesb_sound; reflexivity|].
  all: split; intros Hc; by_eval Hc.
Qed.

(** C3, amended.  In every run of [printText] in which the [Display]
    construction returns, the first draw call is [draw_text8x8] invoked on
    the display handle with x-coordinate 20, y-coordinate 80, the string
    ['Hello World!'] and the colour [color565(255, 0, 255)]; it is made
    exactly once, before the font load and before [draw_text], neither of
    which is attempted unless it returned. *)
Theorem first_draw_call w h s :
  returned is_display (printText_trace w h s) ->
  draw_calls (printText_trace w h s) !! 0%nat =
    Some (CallDrawText8x8 display_handle 20 80 "Hello World!" (color565 w 255 0 255))
  /\ count (ext is_draw_text8x8) (printText_trace w h s) = 1%nat
  /\ precedes (ext is_draw_text8x8) (ext is_font) (printText_trace w h s)
  /\ precedes (ext is_draw_text8x8) (ext is_draw_text) (printText_trace w h s)
  /\ (invoked is_font (printText_trace w h s) ->
      returned is_draw_text8x8 (printText_trace w h s))
  /\ (invoked is_draw_text (printText_trace w h s) ->
      returned is_draw_text8x8 (printText_trace w h s)).
Proof.
  rewrite !returned_iff, !invoked_iff. unfold printText_trace.
  start_run (printText w h s) H.
  all: intros Hd; try discriminate Hd.
  all: split; [reflexivity|].
  all: split; [reflexivity|].
  all: split; [apply precedesb_sound; reflexivity|].
  all: split; [apply precedesb_sound; reflexivity|].
  all: split; intros Hc; by_eval Hc.
Qed.

(** The run in which nothing raises: the display is constructed. *)
Lemma first_draw_call_witness :
  returned is_display (printText_trace calm [] power_on)
  /\ draw_calls (printText_trace calm [] power_on) !! 0%nat =
       Some (CallDrawText8x8 display_handle 20 80 "Hello World!" 63519).
Proof.
  assert (Hd : returned is_display (printText_trace calm [] power_on))
    by (apply returned_iff; reflexivity).
  split; [exact Hd|].
  exact (proj1 (first_draw_call calm [] power_on Hd)).
Defined.

(** C3 as stated fails: when the [Display] construction raises, the run
    ends there and makes no draw call at all, so it has no first draw
    call. *)
Lemma no_draw_call_when_display_raises :
  result_of (printText (failing is_display "OSError") [] power_on) = Raise "OSError"
  /\ draw_calls (printText_trace (failing is_display "OSError") [] power_on) = []
  /\ draw_calls (printText_trace (failing is_display "OSError") [] power_on) !! 0%nat
     <> Some (CallDrawText8x8 display_handle 20 80 "Hello World!"
                (color565 (failing is_display "OSError") 255 0 255)).
Proof.
  split; [reflexivity|]. split; [reflexivity|].
  intros Hc. vm_compute in Hc. discriminate Hc.
Qed.

(** C4.  In every run of [printText] in which the font load returns, the
    second draw call is
    [draw_text(20, 155, 'HELLO WORLD!', robotron, color565(255, 255, 255))]
    on the display handle, where [robotron] is the handle returned by the one
    font load of the run, [XglcdFont('fonts/Robotron13x21.c', 13, 21)], which
    precedes it; [draw_text] is invoked exactly once. *)
Theorem second_draw_call w h s :
  returned is_font (printText_trace w h s) ->
  draw_calls (printText_trace w h s) !! 1%nat =
    Some (CallDrawText display_handle 20 155 "HELLO WORLD!" robotron_font
            (color565 w 255 255 255))
  /\ List.filter is_font (calls (printText_trace w h s)) =
       [CallXglcdFont "fonts/Robotron13x21.c" 13 21]
  /\ precedes (ext is_font) (ext is_draw_text) (printText_trace w h s)
  /\ count (ext is_draw_text) (printText_trace w h s) = 1%nat.
Proof.
  rewrite !returned_iff. unfold printText_trace.
  start_run (printText w h s) H.
  all: intros Hf; try discriminate Hf.
  all: repeat split; try reflexivity; apply precedesb_sound; reflexivity.
Qed.

(** The run in which nothing raises: the font load returns. *)
Lemma second_draw_call_witness :
  returned is_font (printText_trace calm [] power_on)
  /\ draw_calls (printText_trace calm [] power_on) !! 1%nat =
       Some (CallDrawText display_handle 20 155 "HELLO WORLD!" robotron_font 65535).
Proof.
  assert (Hf : returned is_font (printText_trace calm [] power_on))
    by (apply returned_iff; reflexivity).
  split; [exact Hf|].
  exact (proj1 (second_draw_call calm [] power_on Hf)).
Defined.

(** ** [printText]: failures *)

(** C2.  If the font load raises [x], then [printText] ends by raising [x],
    and neither [draw_text], nor [sleep], nor any teardown call is
    invoked. *)
Theorem font_failure_propagates w h s x :
  raised is_font x (printText_trace w h s) ->
  result_of (printText w h s) = Raise x
  /\ ~ invoked is_draw_text (printText_trace w h s)
  /\ ~ invoked is_sleep (printText_trace w h s)
  /\ ~ invoked is_teardown (printText_trace w h s).
Proof.
  rewrite !invoked_iff. unfold printText_trace, raised.
  start_run (printText w h s) H.
  all: intros (c & Hc & Hin); mem_cases Hin.
  all: try discriminate Hin.
  all: injection Hin as -> ->; try discriminate Hc.
  all: repeat split; intros Hb; discriminate Hb.
Qed.

(** A run in which the font load raises [OSError]. *)
Lemma font_failure_propagates_witness :
  raised is_font "OSError" (printText_trace (failing is_font "OSError") [] power_on)
  /\ result_of (printText (failing is_font "OSError") [] power_on) = Raise "OSError"
  /\ ~ invoked is_draw_text (printText_trace (failing is_font "OSError") [] power_on)
  /\ ~ invoked is_sleep (printText_trace (failing is_font "OSError") [] power_on)
  /\ ~ invoked is_teardown (printText_trace (failing is_font "OSError") [] power_on).
Proof.
  assert (Hr : raised is_font "OSError"
                 (printText_trace (failing is_font "OSError") [] power_on))
    by (apply raised_iff; reflexivity).
  split; [exact Hr|].
  exact (font_failure_propagates (failing is_font "OSError") [] power_on "OSError" Hr).
Defined.

(** C8.  If a call other than [clear], [cleanup] and [backlight_off] raises
    [x] (a pin or SPI construction, the display construction, a draw call,
    the font load, the delay), then [printText] ends by raising [x] and none
    of [clear], [cleanup], [backlight_off] is invoked. *)
Theorem failure_skips_teardown w h s x :
  raised not_teardown x (printText_trace w h s) ->
  result_of (printText w h s) = Raise x
  /\ ~ invoked is_clear (printText_trace w h s)
  /\ ~ invoked is_cleanup (printText_trace w h s)
  /\ ~ invoked is_backlight_off (printText_trace w h s).
Proof.
  rewrite !invoked_iff. unfold printText_trace, raised.
  start_run (printText w h s) H.
  all: intros (c & Hc & Hin); mem_cases Hin.
  all: try discriminate Hin.
  all: injection Hin as -> ->; try discriminate Hc.
  all: repeat split; intros Hb; discriminate Hb.
Qed.

(** A run in which the display construction raises [OSError]. *)
Lemma failure_skips_teardown_witness :
  raised not_teardown "OSError" (printText_trace (failing is_display "OSError") [] power_on)
  /\ result_of (printText (failing is_display "OSError") [] power_on) = Raise "OSError"
  /\ ~ invoked is_clear (printText_trace (failing is_display "OSError") [] power_on)
  /\ ~ invoked is_cleanup (printText_trace (failing is_display "OSError") [] power_on)
  /\ ~ invoked is_backlight_off (printText_trace (failing is_display "OSError") [] power_on).
Proof.
  assert (Hr : raised not_teardown "OSError"
                 (printText_trace (failing is_display "OSError") [] power_on))
    by (apply raised_iff; reflexivity).
  split; [exact Hr|].
  exact (failure_skips_teardown (failing is_display "OSError") [] power_on "OSError" Hr).
Defined.

(** ** [printText]: delay and teardown *)

(** In every run of [printText], whatever raises: a [sleep] call receives the duration
    10 and nothing else; there is at most one; it is made exactly when
    [draw_text] has returned, hence after both draw calls, and before every
    teardown call, which are attempted exactly when it has returned.  A run
    in which [sleep] returns has spent 10 seconds in it, any other run
    none. *)
Lemma delay_in_every_run w h s :
  (forall c, c ∈ List.filter is_sleep (calls (printText_trace w h s)) -> c = CallSleep 10)
  /\ (count (ext is_sleep) (printText_trace w h s) <= 1)%nat
  /\ (returned is_draw_text (printText_trace w h s) <->
      invoked is_sleep (printText_trace w h s))
  /\ (invoked is_sleep (printText_trace w h s) ->
      returned is_draw_text8x8 (printText_trace w h s))
  /\ precedes (ext is_draw) (ext is_sleep) (printText_trace w h s)
  /\ precedes (ext is_sleep) (ext is_teardown) (printText_trace w h s)
  /\ (returned is_sleep (printText_trace w h s) <->
      invoked is_teardown (printText_trace w h s))
  /\ (returned is_sleep (printText_trace w h s) ->
      slept (hw_of (printText w h s)) = slept s + 10)
  /\ (~ returned is_sleep (printText_trace w h s) ->
      slept (hw_of (printText w h s)) = slept s).
Proof.
  rewrite !returned_iff, !invoked_iff. unfold printText_trace.
  start_run (printText w h s) H.
  all: split; [intros c Hc; cbn in Hc; mem_cases Hc; exact Hc|].
  all: split; [cbn; lia|].
  all: split; [split; intros Hc; by_eval Hc|].
  all: split; [intros Hc; by_eval Hc|].
  all: split; [apply precedesb_sound; reflexivity|].
  all: split; [apply precedesb_sound; reflexivity|].
  all: split; [split; intros Hc; by_eval Hc|].
  all: split; [intros Hc; by_eval Hc|].
  all: intros Hc; first [reflexivity | exfalso; apply Hc; reflexivity].
Qed.

(** C9, amended.  In every run of [printText] in which the [sleep] call
    returns, the delay step is a single call, [sleep(10)], which receives
    the duration and nothing else, and the run has spent exactly 10 seconds
    in it; it occurs after both draw calls, which returned, and before the
    teardown, which is then started. *)
Theorem delay_between_draws_and_teardown w h s :
  returned is_sleep (printText_trace w h s) ->
  List.filter is_sleep (calls (printText_trace w h s)) = [CallSleep 10]
  /\ slept (hw_of (printText w h s)) = slept s + 10
  /\ returned is_draw_text8x8 (printText_trace w h s)
  /\ returned is_draw_text (printText_trace w h s)
  /\ precedes (ext is_draw) (ext is_sleep) (printText_trace w h s)
  /\ precedes (ext is_sleep) (ext is_teardown) (printText_trace w h s)
  /\ invoked is_clear (printText_trace w h s).
Proof.
  rewrite !returned_iff, !invoked_iff. unfold printText_trace.
  start_run (printText w h s) H.
  all: intros Hs; try discriminate Hs.
  all: split; [reflexivity|].
  all: split; [reflexivity|].
  all: split; [reflexivity|].
  all: split; [reflexivity|].
  all: split; [apply precedesb_sound; reflexivity|].
  all: split; [apply precedesb_sound; reflexivity|].
  all: reflexivity.
Qed.

(** The run in which nothing raises, from power-on: 10 seconds slept. *)
Lemma delay_between_draws_and_teardown_witness :
  returned is_sleep (printText_trace calm [] power_on)
  /\ List.filter is_sleep (calls (printText_trace calm [] power_on)) = [CallSleep 10]
  /\ slept (hw_of (printText calm [] power_on)) = 10.
Proof.
  assert (Hs : returned is_sleep (printText_trace calm [] power_on))
    by (apply returned_iff; reflexivity).
  split; [exact Hs|].
  split.
  - exact (proj1 (delay_between_draws_and_teardown calm [] power_on Hs)).
  - exact (proj1 (proj2 (delay_between_draws_and_teardown calm [] power_on Hs))).
Defined.

(** C9 as stated fails: when [sleep] itself raises (an interrupt during the
    delay), the delay step has been reached with duration 10 but the run has
    not spent 10 seconds in it, and no teardown call follows. *)
Lemma delay_cut_short_when_sleep_raises :
  List.filter is_sleep
    (calls (printText_trace (failing is_sleep "KeyboardInterrupt") [] power_on))
    = [CallSleep 10]
  /\ result_of (printText (failing is_sleep "KeyboardInterrupt") [] power_on)
     = Raise "KeyboardInterrupt"
  /\ slept (hw_of (printText (failing is_sleep "KeyboardInterrupt") [] power_on))
     <> slept power_on + 10
  /\ ~ invoked is_teardown
         (printText_trace (failing is_sleep "KeyboardInterrupt") [] power_on).
Proof.
  split; [reflexivity|]. split; [reflexivity|]. split.
  - intros Hc. vm_compute in Hc. discriminate Hc.
  - rewrite invoked_iff. intros Hc. vm_compute in Hc. discriminate Hc.
Qed.

(** In every run of [printText], each teardown call is invoked at most once,
    and those that are invoked come in the order [clear], [cleanup],
    [backlight_off], after the delay and after every draw call. *)
Lemma teardown_at_most_once_in_order w h s :
  (count (ext is_clear) (printText_trace w h s) <= 1)%nat
  /\ (count (ext is_cleanup) (printText_trace w h s) <= 1)%nat
  /\ (count (ext is_backlight_off) (printText_trace w h s) <= 1)%nat
  /\ precedes (ext is_clear) (ext is_cleanup) (printText_trace w h s)
  /\ precedes (ext is_cleanup) (ext is_backlight_off) (printText_trace w h s)
  /\ precedes (ext is_sleep) (ext is_teardown) (printText_trace w h s)
  /\ precedes (ext is_draw) (ext is_teardown) (printText_trace w h s).
Proof.
  unfold printText_trace.
  start_run (printText w h s) H.
  all: repeat split; try (cbn; lia); apply precedesb_sound; reflexivity.
Qed.

(** C1, amended.  In every run of [printText] in which the delay, [clear]
    and [cleanup] each return, [clear], [cleanup] and [backlight_off] are
    each invoked exactly once, in that order, all after the delay, and no
    draw call occurs after any of them. *)
Theorem teardown_after_delay w h s :
  returned is_sleep (printText_trace w h s) ->
  returned is_clear (printText_trace w h s) ->
  returned is_cleanup (printText_trace w h s) ->
  teardown_once_in_order (printText_trace w h s).
Proof.
  rewrite !returned_iff. unfold printText_trace.
  start_run (printText w h s) H.
  all: intros Hs Hc Hu; try discriminate.
  all: repeat split; try reflexivity; apply precedesb_sound; reflexivity.
Qed.

(** The run in which nothing raises: delay, [clear] and [cleanup] return. *)
Lemma teardown_after_delay_witness :
  returned is_sleep (printText_trace calm [] power_on)
  /\ returned is_clear (printText_trace calm [] power_on)
  /\ returned is_cleanup (printText_trace calm [] power_on)
  /\ teardown_once_in_order (printText_trace calm [] power_on).
Proof.
  assert (Hs : returned is_sleep (printText_trace calm [] power_on))
    by (apply returned_iff; reflexivity).
  assert (Hc : returned is_clear (printText_trace calm [] power_on))
    by (apply returned_iff; reflexivity).
  assert (Hu : returned is_cleanup (printText_trace calm [] power_on))
    by (apply returned_iff; reflexivity).
  split; [exact Hs|]. split; [exact Hc|]. split; [exact Hu|].
  exact (teardown_after_delay calm [] power_on Hs Hc Hu).
Defined.

(** C1 as stated fails: when [clear] raises, the delay has been reached (it
    even returned), [clear] is invoked once, and [cleanup] and
    [backlight_off] are never invoked. *)
Lemma teardown_skipped_when_clear_raises :
  invoked is_sleep (printText_trace (failing is_clear "OSError") [] power_on)
  /\ returned is_sleep (printText_trace (failing is_clear "OSError") [] power_on)
  /\ count (ext is_cleanup) (printText_trace (failing is_clear "OSError") [] power_on) = 0%nat
  /\ count (ext is_backlight_off)
       (printText_trace (failing is_clear "OSError") [] power_on) = 0%nat
  /\ ~ teardown_once_in_order (printText_trace (failing is_clear "OSError") [] power_on).
Proof.
  split; [apply invoked_iff; reflexivity|].
  split; [apply returned_iff; reflexivity|].
  split; [reflexivity|]. split; [reflexivity|].
  intros (_ & Hcleanup & _). vm_compute in Hcleanup. discriminate Hcleanup.
Qed.

(** ** The module: LED set-up, then [printText()] *)

(** The module runs the LED set-up and, when that has returned, invokes
    [printText] on the trace and hardware state it left. *)
Lemma main_unfold w h s :
  main w h s =
  match led_setup w h s with
  | (t1, s1, Ok _) =>
      match printText w (h ++ t1 ++ [Enter "printText"]) s1 with
      | (t2, s2, r) => (t1 ++ Enter "printText" :: t2, s2, r)
      end
  | (t1, s1, Raise x) => (t1, s1, Raise x)
  end.
Proof.
  unfold main, bind, invoke.
  destruct (led_setup w h s) as [[t1 s1] [leds|x]]; [|reflexivity].
  rewrite <- app_assoc.
  destruct (printText w (h ++ t1 ++ [Enter "printText"]) s1) as [[t2 s2] r].
  reflexivity.
Qed.

(** In every run of the module, whatever raises: [printText] is invoked at
    most once, and exactly once when the LED set-up completes; all LED
    set-up calls precede the invocation, every SPI, display, font, draw,
    delay and teardown operation, and indeed every other entry of the
    trace. *)
Lemma led_setup_first_in_every_run w h s :
  (count (is_enter "printText") (main_trace w h s) <= 1)%nat
  /\ ((exists leds, result_of (led_setup w h s) = Ok leds) <->
      count (is_enter "printText") (main_trace w h s) = 1%nat)
  /\ precedes (ext is_led_setup) (is_enter "printText") (main_trace w h s)
  /\ precedes (ext is_led_setup) (ext is_printText_op) (main_trace w h s)
  /\ precedes (ext is_led_setup) (other_than (ext is_led_setup)) (main_trace w h s).
Proof.
  unfold main_trace. rewrite main_unfold.
  start_run (led_setup w h s) H.
  7: match goal with
     | |- context [printText ?w' ?h' ?s'] => start_run (printText w' h' s') H
     end.
  all: split; [cbn; lia|].
  all: split; [split; [intros [leds Hl]; by_eval Hl
                      | intros Hc; first [eexists; reflexivity | by_eval Hc]]|].
  all: split; [apply precedesb_sound; reflexivity|].
  all: split; apply precedesb_sound; reflexivity.
Qed.

(** C10, amended.  In every run of the module in which the LED set-up of
    lines 8-14 completes, [printText] is invoked exactly once, at module top
    level: the trace is the six LED set-up calls, all returned, then the
    invocation and the run of [printText], which starts in the hardware
    state the set-up left, where each of the three LED lines is an output
    driven high.  All LED set-up calls precede the invocation and every SPI,
    display, font, draw, delay and teardown operation. *)
Theorem printText_invoked_once_after_led_setup w h s leds :
  result_of (led_setup w h s) = Ok leds ->
  (forall n, is_led_line n = true ->
     gpio (hw_of (led_setup w h s)) !! n = Some (mkLine (Some OUT) (Some true)))
  /\ count (is_enter "printText") (main_trace w h s) = 1%nat
  /\ main_trace w h s =
       led_setup_trace ++ Enter "printText" ::
         printText_trace w (h ++ led_setup_trace ++ [Enter "printText"])
           (hw_of (led_setup w h s))
  /\ precedes (ext is_led_setup) (is_enter "printText") (main_trace w h s)
  /\ precedes (ext is_led_setup) (ext is_printText_op) (main_trace w h s).
Proof.
  intros Hr. split.
  - intros n Hn. revert Hr.
    start_run (led_setup w h s) H.
    all: intros Hr; try discriminate Hr.
    unfold is_led_line in Hn.
    destruct (Z.eqb_spec n 4) as [Hn4|Hn4];
      [|destruct (Z.eqb_spec n 16) as [Hn16|Hn16];
        [|destruct (Z.eqb_spec n 17) as [Hn17|Hn17]; [|discriminate Hn]]];
      subst n.
    + rewrite !drive_high_lookup_ne, drive_high_lookup by lia.
      rewrite !configure_mode_ne, configure_mode by lia. reflexivity.
    + rewrite drive_high_lookup_ne, drive_high_lookup by lia.
      rewrite drive_high_mode, configure_mode_ne, configure_mode by lia. reflexivity.
    + rewrite drive_high_lookup.
      rewrite !drive_high_mode, configure_mode. reflexivity.
  - revert Hr. unfold main_trace, printText_trace, led_setup_trace.
    rewrite main_unfold.
    start_run (led_setup w h s) H.
    all: intros Hr; try discriminate Hr.
    match goal with
    | |- context [printText ?w' ?h' ?s'] => start_run (printText w' h' s') H
    end.
    all: split; [reflexivity|].
    all: split; [reflexivity|].
    all: split; apply precedesb_sound; reflexivity.
Qed.

(** The run in which nothing raises, from power-on. *)
Lemma printText_invoked_once_after_led_setup_witness :
  result_of (led_setup calm [] power_on)
    = Ok (mkPin 4 (Some OUT), mkPin 16 (Some OUT), mkPin 17 (Some OUT))
  /\ count (is_enter "printText") (main_trace calm [] power_on) = 1%nat.
Proof.
  split; [reflexivity|].
  exact (proj1 (proj2 (printText_invoked_once_after_led_setup calm [] power_on
           (mkPin 4 (Some OUT), mkPin 16 (Some OUT), mkPin 17 (Some OUT)) eq_refl))).
Defined.

(** C10 as stated fails: when the construction of the red LED pin raises,
    the module ends there and [printText] is not invoked at all. *)
Lemma printText_not_invoked_when_led_pin_raises :
  result_of (main (failing (is_pin 4) "ValueError") [] power_on) = Raise "ValueError"
  /\ count (is_enter "printText")
       (main_trace (failing (is_pin 4) "ValueError") [] power_on) = 0%nat
  /\ count (is_enter "printText")
       (main_trace (failing (is_pin 4) "ValueError") [] power_on) <> 1%nat.
Proof.
  split; [reflexivity|]. split; [reflexivity|].
  intros Hc. vm_compute in Hc. discriminate Hc.
Qed.

(** * Further properties of the script *)

(** ** The order of the calls *)

Lemma printText_calls_NoDup w : NoDup (printText_calls w).
Proof.
  unfold printText_calls.
  repeat (apply NoDup_cons; split;
          [intros Hin; mem_cases Hin; discriminate Hin|]).
  apply NoDup_nil_2.
Qed.

(** Whatever the environment does, the calls of a run of [printText] are an
    initial segment of the fourteen calls of lines 20-33 in source order: a
    failure can only cut the run short, never reorder, skip or repeat a
    call. *)
Theorem printText_calls_in_source_order w h s :
  calls (printText_trace w h s) `prefix_of` printText_calls w
  /\ NoDup (calls (printText_trace w h s)).
Proof.
  assert (Hp : calls (printText_trace w h s) `prefix_of` printText_calls w).
  { unfold printText_trace.
    start_run (printText w h s) H.
    all: cbn; eexists; reflexivity. }
  split; [exact Hp|].
  destruct Hp as [k Hk].
  pose proof (printText_calls_NoDup w) as Hnd.
  rewrite Hk in Hnd. apply NoDup_app in Hnd as (Hnd & _). exact Hnd.
Qed.

(** [printText] returns normally exactly when all fourteen calls were made
    and every one of them returned. *)
Theorem printText_returns_iff_complete w h s :
  result_of (printText w h s) = Ok tt <->
  printText_trace w h s = all_returned (printText_calls w).
Proof.
  unfold printText_trace.
  start_run (printText w h s) H.
  all: split; intros Hc; first [reflexivity | discriminate Hc].
Qed.

(** The module returns normally exactly when the six LED set-up calls, the
    invocation of [printText] and its fourteen calls all happened and
    returned. *)
Theorem main_returns_iff_complete w h s :
  result_of (main w h s) = Ok tt <->
  main_trace w h s =
    led_setup_trace ++ Enter "printText" :: all_returned (printText_calls w).
Proof.
  unfold main_trace. rewrite main_unfold.
  start_run (led_setup w h s) H.
  7: match goal with
     | |- context [printText ?w' ?h' ?s'] => start_run (printText w' h' s') H
     end.
  all: split; intros Hc; first [reflexivity | discriminate Hc].
Qed.

(** ** Progress *)

Ltac raise_contradicts Hk :=
  match goal with
  | E : raises _ ?h' ?c = Some _ |- _ =>
      rewrite (Hk h' c) in E;
      [ discriminate E
      | cbn; repeat first [apply list_elem_of_here | apply list_elem_of_further] ]
  end.

(** If the environment raises on none of the first [k] calls of
    [printText], the run makes those [k] calls in source order, each
    returns, and it goes on to make the next call (when there is one): the
    script itself never stops early. *)
Theorem printText_progress w h s k :
  (forall h' c, c ∈ take k (printText_calls w) -> raises w h' c = None) ->
  take k (printText_trace w h s) = all_returned (take k (printText_calls w))
  /\ calls (take (S k) (printText_trace w h s)) = take (S k) (printText_calls w).
Proof.
  intros Hk. unfold printText_trace.
  start_run (printText w h s) H.
  all: do 15 (try (destruct k as [|k];
                   [first [split; reflexivity | exfalso; raise_contradicts Hk]|])).
  all: first [split; reflexivity | exfalso; raise_contradicts Hk].
Qed.

(** An environment in which only the font load raises: the first eight
    calls return and the ninth, the font load, is made. *)
Lemma printText_progress_witness :
  (forall h' c, c ∈ take 8 (printText_calls (failing is_font "OSError")) ->
     raises (failing is_font "OSError") h' c = None)
  /\ calls (take 9 (printText_trace (failing is_font "OSError") [] power_on))
     = take 9 (printText_calls (failing is_font "OSError")).
Proof.
  assert (Hk : forall h' c, c ∈ take 8 (printText_calls (failing is_font "OSError")) ->
                 raises (failing is_font "OSError") h' c = None).
  { intros h' c Hc. cbn in Hc. mem_cases Hc; subst c; reflexivity. }
  split; [exact Hk|].
  exact (proj2 (printText_progress (failing is_font "OSError") [] power_on 8 Hk)).
Defined.

(** ** GPIO lines *)

Lemma line_of_configure n n' m g :
  line_of (configure n (Some m) g) n' =
  if decide (n = n') then mkLine (Some m) (level (line_of g n)) else line_of g n'.
Proof.
  unfold line_of. case_decide as Hn.
  - subst n'. rewrite configure_lookup. reflexivity.
  - rewrite configure_lookup_ne by exact Hn. reflexivity.
Qed.

Lemma line_of_drive_high n n' g :
  line_of (drive_high n g) n' =
  if decide (n = n') then mkLine (mode (line_of g n)) (Some true) else line_of g n'.
Proof.
  unfold line_of. case_decide as Hn.
  - subst n'. rewrite drive_high_lookup. reflexivity.
  - rewrite drive_high_lookup_ne by exact Hn. reflexivity.
Qed.

Ltac eqb_cases :=
  repeat match goal with
         | H : context [?a =? ?b] |- _ => destruct (Z.eqb_spec a b)
         | |- context [?a =? ?b] => destruct (Z.eqb_spec a b)
         end.

(** The GPIO lines after the LED set-up of lines 8-14, whether it completed
    or stopped at a call that raised: a line is an output exactly if its
    [Pin(..., Pin.OUT)] returned and otherwise keeps its mode; its latch is
    high exactly if [on()] returned on it and otherwise keeps its level.  In
    particular a failure among the three constructions leaves outputs that
    were never driven high. *)
Theorem led_setup_lines_any_outcome w h s n :
  (returned (is_pin n) (trace_of (led_setup w h s)) ->
     mode (line_of (gpio (hw_of (led_setup w h s))) n) = Some OUT)
  /\ (~ returned (is_pin n) (trace_of (led_setup w h s)) ->
     mode (line_of (gpio (hw_of (led_setup w h s))) n) = mode (line_of (gpio s) n))
  /\ (returned (is_on_line n) (trace_of (led_setup w h s)) ->
     level (line_of (gpio (hw_of (led_setup w h s))) n) = Some true)
  /\ (~ returned (is_on_line n) (trace_of (led_setup w h s)) ->
     level (line_of (gpio (hw_of (led_setup w h s))) n) = level (line_of (gpio s) n)).
Proof.
  rewrite !returned_iff.
  start_run (led_setup w h s) H.
  all: rewrite ?line_of_drive_high, ?line_of_configure.
  all: cbn [returnedb existsb ext is_pin is_on_line is_return pin_id andb orb].
  all: rewrite ?andb_true_r, ?andb_false_r, ?orb_false_r.
  all: repeat split; intros Hc.
  all: eqb_cases; subst; repeat case_decide; cbn [mode level orb] in *.
  all: try reflexivity; try discriminate Hc; try lia.
  all: try (exfalso; apply Hc; reflexivity).
  all: congruence.
Qed.

(** [printText] itself never reconfigures or drives a GPIO line (its pins
    are constructed without a mode): a line that the drivers leave alone is,
    after the run, as it was before, whether the run completed or raised. *)
Theorem printText_gpio_frame w h s n :
  (forall e g, drv_effect w e g !! n = g !! n) ->
  gpio (hw_of (printText w h s)) !! n = gpio s !! n.
Proof.
  intros Hd.
  start_run (printText w h s) H.
  all: cbn [configure]; rewrite ?Hd; reflexivity.
Qed.

(** With drivers that leave every line alone, from power-on, at GPIO 21. *)
Lemma printText_gpio_frame_witness :
  (forall e g, drv_effect calm e g !! 21 = g !! 21)
  /\ gpio (hw_of (printText calm [] power_on)) !! 21 = gpio power_on !! 21.
Proof.
  assert (Hd : forall e g, drv_effect calm e g !! 21 = g !! 21)
    by (intros e g; reflexivity).
  split; [exact Hd|].
  exact (printText_gpio_frame calm [] power_on 21 Hd).
Defined.

Lemma configure_no_mode n g : configure n None g = g.
Proof. reflexivity. Qed.

(** Once the LED set-up has completed, an LED line that the drivers leave
    alone is still an output driven high when the module ends, whether
    [printText] completed or raised. *)
Theorem led_lines_high_at_module_end w h s leds n :
  result_of (led_setup w h s) = Ok leds ->
  is_led_line n = true ->
  (forall e g, drv_effect w e g !! n = g !! n) ->
  gpio (hw_of (main w h s)) !! n = Some (mkLine (Some OUT) (Some true)).
Proof.
  intros Hr Hn Hd. revert Hr. rewrite main_unfold.
  assert (Hcases : n = 4 \/ n = 16 \/ n = 17).
  { unfold is_led_line in Hn.
    destruct (Z.eqb_spec n 4); [auto|].
    destruct (Z.eqb_spec n 16); [auto|].
    destruct (Z.eqb_spec n 17); [auto|discriminate Hn]. }
  clear Hn.
  start_run (led_setup w h s) H.
  all: intros Hr; try discriminate Hr.
  match goal with
  | |- context [printText ?w' ?h' ?s'] => start_run (printText w' h' s') H
  end.
  all: rewrite ?configure_no_mode, ?Hd.
  all: destruct Hcases as [->|[->| ->]].
  all: rewrite ?drive_high_lookup_ne by lia; rewrite drive_high_lookup.
  all: rewrite ?drive_high_mode.
  all: rewrite ?configure_mode_ne by lia; rewrite configure_mode.
  all: reflexivity.
Qed.

(** The run in which [draw_text] raises, with drivers that leave every line
    alone, from power-on, observed at the red LED line. *)
Lemma led_lines_high_at_module_end_witness :
  result_of (led_setup (failing is_draw_text "OSError") [] power_on)
    = Ok (mkPin 4 (Some OUT), mkPin 16 (Some OUT), mkPin 17 (Some OUT))
  /\ is_led_line 4 = true
  /\ (forall e g, drv_effect (failing is_draw_text "OSError") e g !! 4 = g !! 4)
  /\ gpio (hw_of (main (failing is_draw_text "OSError") [] power_on)) !! 4
     = Some (mkLine (Some OUT) (Some true)).
Proof.
  assert (Hd : forall e g, drv_effect (failing is_draw_text "OSError") e g !! 4 = g !! 4)
    by (intros e g; reflexivity).
  split; [reflexivity|]. split; [reflexivity|]. split; [exact Hd|].
  exact (led_lines_high_at_module_end (failing is_draw_text "OSError") [] power_on
           (mkPin 4 (Some OUT), mkPin 16 (Some OUT), mkPin 17 (Some OUT)) 4
           eq_refl eq_refl Hd).
Defined.
